(** * drand deployment helpers: the compose-file generator and the CORS file server

    A shallow embedding of the two scripts of the repository,

    - [main.py]: builds the list of container descriptors from the table of
      latency classes and renders the docker-compose template with it;
    - [web/server_example/script.py]: serves the working directory over HTTP
      and adds a cross-origin header to the responses.

    Python values are embedded as Rocq data: [str] as [string], [int] as [Z],
    the dictionary of one descriptor as a record, a [dict] as an association
    list in insertion order.  Code that can raise returns [result], the sum of
    the exception and the value. *)

From Stdlib Require Import ZArith List Bool Lia Permutation.
From Stdlib Require Import Strings.String Strings.Ascii.
From Stdlib Require Import Numbers.DecimalString Numbers.DecimalPos Numbers.DecimalZ.
Import ListNotations.

Local Open Scope Z_scope.
Local Open Scope list_scope.
Local Open Scope string_scope.

(** ** Exceptions and the error monad *)

Inductive exn : Type :=
| TypeError
| ValueError
| AttributeError
| IndexError
| TemplateNotFound (name : string)
| TemplateSyntaxError (message : string).

Definition result (A : Type) : Type := (exn + A)%type.

Definition raise {A : Type} (e : exn) : result A := inl e.

Class Monad (M : Type -> Type) : Type := {
  ret : forall {A : Type}, A -> M A;
  bind : forall {A B : Type}, M A -> (A -> M B) -> M B
}.

Notation "x <- c ;; k" := (bind c (fun x => k))
  (at level 61, c at next level, right associativity).

Notation "c ;;; k" := (bind c (fun _ => k))
  (at level 61, right associativity).

Definition result_bind {A B : Type} (c : result A) (k : A -> result B) : result B :=
  match c with
  | inl e => inl e
  | inr a => k a
  end.

#[export] Instance Monad_result : Monad result := {
  ret := fun A a => inr a;
  bind := @result_bind
}.

(** A list comprehension whose element expression can raise: the elements are
    evaluated from left to right and the first exception ends the evaluation. *)
Fixpoint comprehension {A B : Type} (f : A -> result B) (xs : list A) : result (list B) :=
  match xs with
  | [] => ret []
  | x :: xs' =>
      y <- f x ;;
      ys <- comprehension f xs' ;;
      ret (y :: ys)
  end.

(** ** Scripts: exceptions and a trace of what the process does *)

Section Prog.

Variable event : Type.

(** A script step reads the trace so far and returns its value or the
    exception it raised, with the trace extended by what it did. *)
Definition prog (A : Type) : Type := list event -> result A * list event.

Definition prog_bind {A B : Type} (c : prog A) (k : A -> prog B) : prog B :=
  fun tr =>
    match c tr with
    | (inl e, tr') => (inl e, tr')
    | (inr a, tr') => k a tr'
    end.

#[export] Instance Monad_prog : Monad prog := {
  ret := fun A a tr => (inr a, tr);
  bind := @prog_bind
}.

(** A computation without effects, run inside a script. *)
Definition lift {A : Type} (c : result A) : prog A := fun tr => (c, tr).

(** One observable action. *)
Definition emit (ev : event) : prog unit := fun tr => (inr tt, tr ++ [ev])%list.

(** What the interpreter reports when the script ends: an exception that
    nobody caught ends the process with exit status 1, a normal end with 0. *)
Record outcome : Type := mkOutcome {
  trace : list event;
  uncaught : option exn;
  exit_status : Z
}.

Definition run (script : prog unit) : outcome :=
  match script [] with
  | (inr _, tr) => {| trace := tr; uncaught := None; exit_status := 0 |}
  | (inl e, tr) => {| trace := tr; uncaught := Some e; exit_status := 1 |}
  end.

End Prog.

Arguments lift {event A} c.
Arguments emit {event} ev.
Arguments run {event} script.
Arguments trace {event} o.
Arguments uncaught {event} o.
Arguments exit_status {event} o.

(** ** Python built-ins used by [main.py] *)

Module Py.

(** The values that reach the [%] operator in the program. *)
Inductive value : Type :=
| Str (s : string)
| Int (z : Z).

(** [str(z)] for an [int]: decimal digits, a leading minus sign for negatives. *)
Definition str_of_int (z : Z) : string :=
  NilZero.string_of_int (Z.to_int z).

(** [str(v)], the conversion done by [%s]. *)
Definition str (v : value) : string :=
  match v with
  | Str s => s
  | Int z => str_of_int z
  end.

(** [c in s] for a character [c]. *)
Fixpoint mem_char (c : ascii) (s : string) : bool :=
  match s with
  | EmptyString => false
  | String c' s' => Ascii.eqb c' c || mem_char c s'
  end.

(** [range(n)]: the integers [0 .. n-1], nothing when [n <= 0]. *)
Definition range (n : Z) : list Z :=
  map Z.of_nat (seq 0 (Z.to_nat n)).

(** [fmt % args] with a tuple of arguments.  The conversions [%s], [%d] and
    the escape [%%] are interpreted; flags, widths and the other conversion
    types do not occur in the program and are rejected with [ValueError].
    Too few arguments, a [%d] applied to a string and arguments left over
    at the end raise [TypeError], as in Python. *)
Fixpoint format (fmt : string) (args : list value) : result string :=
  match fmt with
  | EmptyString =>
      match args with
      | [] => ret EmptyString
      | _ :: _ => raise TypeError
      end
  | String "%" rest =>
      match rest with
      | EmptyString => raise ValueError
      | String "%" rest' =>
          out <- format rest' args ;;
          ret (String "%" out)
      | String "s" rest' =>
          match args with
          | [] => raise TypeError
          | v :: args' =>
              out <- format rest' args' ;;
              ret (str v ++ out)
          end
      | String "d" rest' =>
          match args with
          | [] => raise TypeError
          | Int z :: args' =>
              out <- format rest' args' ;;
              ret (str_of_int z ++ out)
          | Str _ :: _ => raise TypeError
          end
      | String _ _ => raise ValueError
      end
  | String c rest =>
      out <- format rest args ;;
      ret (String c out)
  end.

End Py.

(** ** [main.py]: the host list *)

Module Main.

(** One element of [hostlist]: the dictionary with the keys ["name"],
    ["latency"] and ["volume_name"]. *)
Record descriptor : Type := mkDescriptor {
  name : string;
  latency : string;
  volume_name : string
}.

(** [make_container_list(latency, count)]. *)
Definition make_container_list (latency : string) (count : Z) : result (list descriptor) :=
  comprehension
    (fun i =>
       n <- Py.format "drand_container_%s_%d" [Py.Str latency; Py.Int i] ;;
       v <- Py.format "drand_volume_%s_%d" [Py.Str latency; Py.Int i] ;;
       ret {| name := n; latency := latency; volume_name := v |})
    (Py.range count).

(** A [dict] from latency label to node count, as the list of its items in
    insertion order.  Keys are distinct in every dictionary ([dict_wf]). *)
Definition dict : Type := list (string * Z).

Definition keys (d : dict) : list string := map fst d.
Definition values (d : dict) : list Z := map snd d.
Definition items (d : dict) : list (string * Z) := d.

Definition dict_wf (d : dict) : Prop := NoDup (keys d).

(** [d[k] = v]: an existing key keeps its position and takes the new value, a
    new key goes to the end. *)
Fixpoint dict_set (k : string) (v : Z) (d : dict) : dict :=
  match d with
  | [] => [(k, v)]
  | (k', v') :: d' =>
      if String.eqb k' k then (k', v) :: d' else (k', v') :: dict_set k v d'
  end.

(** A dictionary display [{k1: v1, ..., kn: vn}]. *)
Definition dict_display (pairs : list (string * Z)) : dict :=
  fold_left (fun d kv => dict_set (fst kv) (snd kv) d) pairs [].

Definition latencies_to_node_count : dict :=
  dict_display [("100ms", 1); ("200ms", 2); ("300ms", 3); ("400ms", 4)].

(** The loop [for l, c in d.items(): hostlist = hostlist + make_container_list(l, c)],
    started from the host list built so far. *)
Fixpoint hostlist_loop (its : list (string * Z)) (hostlist : list descriptor)
  : result (list descriptor) :=
  match its with
  | [] => ret hostlist
  | (l, c) :: its' =>
      block <- make_container_list l c ;;
      hostlist_loop its' (hostlist ++ block)%list
  end.

(** The host-list builder: [hostlist = []] followed by the loop. *)
Definition build_hostlist (d : dict) : result (list descriptor) :=
  hostlist_loop (items d) [].

(** The names as the specification writes them. *)
Definition container_name (label : string) (index : Z) : string :=
  "drand_container_" ++ label ++ "_" ++ Py.str_of_int index.

Definition volume_name_of (label : string) (index : Z) : string :=
  "drand_volume_" ++ label ++ "_" ++ Py.str_of_int index.

Definition descriptor_of (label : string) (index : Z) : descriptor :=
  {| name := container_name label index;
     latency := label;
     volume_name := volume_name_of label index |}.

(** The descriptors of one label with indices [0 .. n-1], in increasing order. *)
Fixpoint block_upto (label : string) (n : nat) : list descriptor :=
  match n with
  | O => []
  | S k => (block_upto label k ++ [descriptor_of label (Z.of_nat k)])%list
  end.

Definition block_of (lc : string * Z) : list descriptor :=
  block_upto (fst lc) (Z.to_nat (snd lc)).

Definition sum_counts (cs : list Z) : Z := fold_right Z.add 0 cs.

(** The number of descriptors that a list of counts stands for: a count
    below zero stands for none. *)
Definition sum_clamped (cs : list Z) : Z :=
  fold_right (fun c acc => Z.max 0 c + acc) 0 cs.

(** [h["latency"] == label]. *)
Definition has_latency (label : string) (h : descriptor) : bool :=
  String.eqb (latency h) label.

(** [d.get(k)]. *)
Fixpoint dict_get (k : string) (d : dict) : option Z :=
  match d with
  | [] => None
  | (k', v) :: d' => if String.eqb k' k then Some v else dict_get k d'
  end.

(** *** Loading and rendering the template *)

(** What the script does that can be observed from outside. *)
Inductive event : Type :=
| Render (hosts : list descriptor)
| Write (text : string).

Definition LF : string := String "010" EmptyString.

(** The text on standard output at the end of a trace. *)
Fixpoint stdout_of (tr : list event) : string :=
  match tr with
  | [] => EmptyString
  | Write text :: tr' => text ++ stdout_of tr'
  | Render _ :: tr' => stdout_of tr'
  end.

(** The arguments of the calls of [render], in order. *)
Fixpoint render_calls (tr : list event) : list (list descriptor) :=
  match tr with
  | [] => []
  | Render hosts :: tr' => hosts :: render_calls tr'
  | Write _ :: tr' => render_calls tr'
  end.

(** [print(text)]: the text, then the line end. *)
Definition print (text : string) : prog event unit :=
  emit (Write text) ;;; emit (Write LF).

Section Jinja2.

(** The template engine is a library.  Its compiled templates, its compiler
    (which returns the message of a syntax error or the template) and its
    renderer are parameters, and so is the working directory:
    [read_file searchpath name] is the text of the file when it exists. *)
Variable Template : Type.
Variable compile : string -> string + Template.
Variable render : Template -> list descriptor -> result string.
Variable read_file : string -> string -> option string.

(** [Environment(loader=FileSystemLoader(searchpath)).get_template(name)]:
    the loader looks the file up and raises [TemplateNotFound] when there is
    none; the source is then compiled, which raises [TemplateSyntaxError]. *)
Definition get_template (searchpath name : string) : result Template :=
  match read_file searchpath name with
  | None => raise (TemplateNotFound name)
  | Some source =>
      match compile source with
      | inl message => raise (TemplateSyntaxError message)
      | inr t => ret t
      end
  end.

(** [template.render(hosts=hostlist)]. *)
Definition template_render (t : Template) (hosts : list descriptor) : prog event string :=
  emit (Render hosts) ;;; lift (render t hosts).

(** The module body of [main.py], statement by statement. *)
Definition main : prog event unit :=
  template <- lift (get_template "./" "docker-compose.yaml.j2") ;;
  hostlist <- lift (build_hostlist latencies_to_node_count) ;;
  text <- template_render template hostlist ;;
  print text.

End Jinja2.

End Main.

(** ** [web/server_example/script.py] *)

Module Script.

Definition CRLF : string := String "013" (String "010" EmptyString).

Definition lower_char (c : ascii) : ascii :=
  let n := nat_of_ascii c in
  if ((65 <=? n) && (n <=? 90))%nat then ascii_of_nat (n + 32) else c.

(** [s.lower()] on ASCII text. *)
Fixpoint lower (s : string) : string :=
  match s with
  | EmptyString => EmptyString
  | String c s' => String (lower_char c) (lower s')
  end.

(** [needle in hay] for byte strings. *)
Fixpoint contains (needle hay : string) : bool :=
  String.prefix needle hay ||
  match hay with
  | EmptyString => false
  | String _ hay' => contains needle hay'
  end.

(** The concatenation of the parts, as [join] on an empty separator. *)
Definition join (parts : list string) : string :=
  fold_right String.append EmptyString parts.

(** *** The request handler of the standard library

    The script imports [SimpleHTTPRequestHandler] from Python's [http.server];
    the class is not part of the repository.  What follows is the part of
    [http/server.py] that produces responses: the header buffer, the status
    line, [send_error] and the file branch of [send_head].  Logging (which
    goes to standard error), directory listings, redirects and conditional
    requests are left out. *)

Record handler : Type := mkHandler {
  request_version : string;
  protocol_version : string;
  command : string;
  path : string;
  headers_buffer : option (list string);
  wfile : string;
  close_connection : bool
}.

Definition set_headers_buffer (b : option (list string)) (self : handler) : handler :=
  {| request_version := request_version self;
     protocol_version := protocol_version self;
     command := command self;
     path := path self;
     headers_buffer := b;
     wfile := wfile self;
     close_connection := close_connection self |}.

Definition set_close_connection (c : bool) (self : handler) : handler :=
  {| request_version := request_version self;
     protocol_version := protocol_version self;
     command := command self;
     path := path self;
     headers_buffer := headers_buffer self;
     wfile := wfile self;
     close_connection := c |}.

(** [self.wfile.write(data)]. *)
Definition wfile_write (data : string) (self : handler) : handler :=
  {| request_version := request_version self;
     protocol_version := protocol_version self;
     command := command self;
     path := path self;
     headers_buffer := headers_buffer self;
     wfile := wfile self ++ data;
     close_connection := close_connection self |}.

(** What the handler reads from its surroundings: the server and date
    strings, the table of reason phrases, the HTML of an error page, the
    content type of a path, and the files that can be opened. *)
Record environment : Type := mkEnvironment {
  version_string : string;
  date_time_string : string;
  responses : Z -> option (string * string);
  error_page : Z -> string -> string -> string;
  guess_type : string -> string;
  open_file : string -> option string;
  last_modified : string -> string
}.

(** The methods that a subclass can override and that the library calls
    through [self]. *)
Record handler_class : Type := mkClass {
  class_end_headers : handler -> result handler
}.

(** ["%s: %s\r\n" % (keyword, value)]. *)
Definition header_line (keyword value : string) : string :=
  keyword ++ ": " ++ value ++ CRLF.

(** ["%s %d %s\r\n" % (protocol_version, code, message)]. *)
Definition status_line (protocol : string) (code : Z) (message : string) : string :=
  protocol ++ " " ++ Py.str_of_int code ++ " " ++ message ++ CRLF.

Module BaseHTTPRequestHandler.

(** [self._headers_buffer.append(line)] after the buffer has been created
    on demand. *)
Definition buffer_append (line : string) (self : handler) : handler :=
  let buffer := match headers_buffer self with
                | None => []
                | Some b => b
                end in
  set_headers_buffer (Some (buffer ++ [line])%list) self.

(** The reason phrase of the status line: the message that was passed, or
    the short entry of the table, or nothing. *)
Definition reason_phrase (env : environment) (code : Z) (message : option string) : string :=
  match message with
  | Some m => m
  | None => match responses env code with
            | Some (short, _) => short
            | None => EmptyString
            end
  end.

Definition send_response_only (env : environment) (code : Z) (message : option string)
    (self : handler) : handler :=
  if String.eqb (request_version self) "HTTP/0.9" then self
  else
    let message := reason_phrase env code message in
    buffer_append (status_line (protocol_version self) code message) self.

Definition send_header (keyword value : string) (self : handler) : handler :=
  let self := if String.eqb (request_version self) "HTTP/0.9" then self
              else buffer_append (header_line keyword value) self in
  if String.eqb (lower keyword) "connection" then
    if String.eqb (lower value) "close" then set_close_connection true self
    else if String.eqb (lower value) "keep-alive" then set_close_connection false self
    else self
  else self.

Definition flush_headers (self : handler) : handler :=
  match headers_buffer self with
  | Some b => set_headers_buffer (Some []) (wfile_write (join b) self)
  | None => self
  end.

(** The blank line that ends the headers.  Appending to a buffer that was
    never created is an [AttributeError]. *)
Definition end_headers (self : handler) : result handler :=
  if String.eqb (request_version self) "HTTP/0.9" then ret self
  else
    match headers_buffer self with
    | None => raise AttributeError
    | Some b => ret (flush_headers (set_headers_buffer (Some (b ++ [CRLF])%list) self))
    end.

Definition send_response (env : environment) (code : Z) (message : option string)
    (self : handler) : handler :=
  let self := send_response_only env code message self in
  let self := send_header "Server" (version_string env) self in
  send_header "Date" (date_time_string env) self.

Definition body_omitted (code : Z) : bool :=
  ((code <? 200) || (code =? 204) || (code =? 205) || (code =? 304))%Z.

Definition send_error (cls : handler_class) (env : environment) (code : Z)
    (message : option string) (self : handler) : result handler :=
  let (shortmsg, longmsg) := match responses env code with
                             | Some sl => sl
                             | None => ("???", "???")
                             end in
  let message := match message with
                 | Some m => m
                 | None => shortmsg
                 end in
  let self := send_response env code (Some message) self in
  let self := send_header "Connection" "close" self in
  let body := if body_omitted code then None
              else Some (error_page env code message longmsg) in
  let self := match body with
              | Some b =>
                  let self := send_header "Content-Type" "text/html;charset=utf-8" self in
                  send_header "Content-Length" (Py.str_of_int (Z.of_nat (String.length b))) self
              | None => self
              end in
  self <- class_end_headers cls self ;;
  ret (match body with
       | Some b =>
           if negb (String.eqb (command self) "HEAD") && negb (String.eqb b EmptyString)
           then wfile_write b self else self
       | None => self
       end).

End BaseHTTPRequestHandler.

Module SimpleHTTPRequestHandler.

(** Inherited from the base class. *)
Definition end_headers : handler -> result handler := BaseHTTPRequestHandler.end_headers.

(** [send_head] for a path that names a regular file or nothing, on a request
    without [If-Modified-Since]: the file is opened, and either its headers
    are sent or the error 404.  The branches for a directory (redirect, index
    file, listing), for a trailing slash and for a conditional request are
    not part of this model. *)
Definition send_head (cls : handler_class) (env : environment) (self : handler)
  : result (handler * option string) :=
  match open_file env (path self) with
  | None =>
      self <- BaseHTTPRequestHandler.send_error cls env 404 (Some "File not found") self ;;
      ret (self, None)
  | Some content =>
      let self := BaseHTTPRequestHandler.send_response env 200 None self in
      let self := BaseHTTPRequestHandler.send_header
                    "Content-type" (guess_type env (path self)) self in
      let self := BaseHTTPRequestHandler.send_header
                    "Content-Length" (Py.str_of_int (Z.of_nat (String.length content))) self in
      let self := BaseHTTPRequestHandler.send_header
                    "Last-Modified" (last_modified env (path self)) self in
      self <- class_end_headers cls self ;;
      ret (self, Some content)
  end.

Definition do_GET (cls : handler_class) (env : environment) (self : handler)
  : result handler :=
  sf <- send_head cls env self ;;
  ret (match snd sf with
       | Some content => wfile_write content (fst sf)
       | None => fst sf
       end).

Definition class : handler_class :=
  {| class_end_headers := end_headers |}.

End SimpleHTTPRequestHandler.

(** *** The handler of the script *)

Module CORSRequestHandler.

Definition end_headers (self : handler) : result handler :=
  let self := BaseHTTPRequestHandler.send_header "Access-Control-Allow-Origin" "*" self in
  SimpleHTTPRequestHandler.end_headers self.

Definition class : handler_class :=
  {| class_end_headers := end_headers |}.

End CORSRequestHandler.

(** The header lines that wait in the buffer. *)
Definition pending (self : handler) : list string :=
  match headers_buffer self with
  | None => []
  | Some b => b
  end.

(** [queued self lines self']: the handler [self'] is [self] with [lines]
    added at the end of the buffer; nothing was written and the request is
    the same. *)
Definition queued (self : handler) (lines : list string) (self' : handler) : Prop :=
  headers_buffer self' = Some (pending self ++ lines)%list /\
  wfile self' = wfile self /\
  request_version self' = request_version self /\
  command self' = command self /\
  path self' = path self /\
  protocol_version self' = protocol_version self.

(** [closes_with extra cls]: for a request with a version and a buffer that
    exists, the method [end_headers] of the class writes the buffered lines,
    then [extra], then the blank line. *)
Definition closes_with (extra : string) (cls : handler_class) : Prop :=
  forall self,
    request_version self <> "HTTP/0.9" ->
    headers_buffer self <> None ->
    exists self',
      class_end_headers cls self = inr self' /\
      wfile self' = wfile self ++ join (pending self) ++ extra ++ CRLF /\
      command self' = command self.

(** The header line that the script adds. *)
Definition cors_line : string := header_line "Access-Control-Allow-Origin" "*".

(** A GET request after [parse_request] has accepted its request line.
    [request_http_version] is [None] for a request line of two words, which
    is served as HTTP/0.9, and otherwise the version word, which
    [parse_request] stores in [request_version] once it has checked it (the
    form HTTP/major.minor, below 2.0).  A request line whose version word is
    refused never reaches [do_GET] and is no [request]. *)
Record request : Type := mkRequest {
  request_path : string;
  request_http_version : option string
}.

Definition handler_for (req : request) : handler :=
  {| request_version := match request_http_version req with
                        | Some v => v
                        | None => "HTTP/0.9"
                        end;
     protocol_version := "HTTP/1.0";
     command := "GET";
     path := request_path req;
     headers_buffer := None;
     wfile := EmptyString;
     close_connection := true |}.

(** The bytes that a handler of class [cls] sends back for a GET request. *)
Definition serve_GET (cls : handler_class) (env : environment) (req : request)
  : result string :=
  self <- SimpleHTTPRequestHandler.do_GET cls env (handler_for req) ;;
  ret (wfile self).

(** *** The entry point *)

Inductive server_class : Type := HTTPServer.

(** A call [test(HandlerClass, ServerClass, port=port)] of the library, which
    binds the port and serves until the process is stopped. *)
Inductive call : Type :=
| test (HandlerClass : handler_class) (ServerClass : server_class) (port : Z).

Section Entry.

(** [int(s)] for a string; [None] stands for the [ValueError] of a string
    that is not an integer literal. *)
Variable int : string -> option Z.

(** The body of [if __name__ == '__main__':] with [sys.argv = argv]. *)
Definition main (argv : list string) : result call :=
  port <- (if (1 <? List.length argv)%nat then
             match nth_error argv 1 with
             | Some arg =>
                 match int arg with
                 | Some n => ret n
                 | None => raise ValueError
                 end
             | None => raise IndexError
             end
           else ret 8000) ;;
  ret (test CORSRequestHandler.class HTTPServer port).

End Entry.

End Script.

(** ** Stand-ins for the libraries, to run the scripts on examples *)

Module Examples.

(** A template engine in which a template is its source, a source with an
    opening ["{{"] and no closing ["}}"] is a syntax error, and rendering
    appends the names of the hosts. *)
Definition compile (source : string) : string + string :=
  if Script.contains "{{" source && negb (Script.contains "}}" source)
  then inl "unexpected end of template"
  else inr source.

Definition render (t : string) (hosts : list Main.descriptor) : result string :=
  inr (t ++ Script.join (map Main.name hosts)).

(** A working directory that holds the compose template and nothing else. *)
Definition read_file (searchpath name : string) : option string :=
  if String.eqb searchpath "./" && String.eqb name "docker-compose.yaml.j2"
  then Some "services: "
  else None.

(** Integer literals in plain decimal notation. *)
Definition int (s : string) : option Z :=
  option_map Z.of_int (NilZero.int_of_string s).

(** A file server with one file. *)
Definition environment : Script.environment :=
  {| Script.version_string := "SimpleHTTP/0.6";
     Script.date_time_string := "Thu, 01 Jan 1970 00:00:00 GMT";
     Script.responses := fun code =>
       if (code =? 200)%Z then Some ("OK", "Request fulfilled, document follows")
       else if (code =? 404)%Z then Some ("Not Found", "Nothing matches the given URI")
       else None;
     Script.error_page := fun code message explain =>
       "<h1>" ++ message ++ "</h1><p>" ++ explain ++ "</p>";
     Script.guess_type := fun _ => "text/html";
     Script.open_file := fun path =>
       if String.eqb path "/index.html" then Some "<p>drand</p>" else None;
     Script.last_modified := fun _ => "Thu, 01 Jan 1970 00:00:00 GMT" |}.

End Examples.

Import Main.

(** * Properties of the host-list builder *)

(** ** The format strings of [make_container_list] *)

Lemma append_empty_r (s : string) : s ++ EmptyString = s.
Proof.
  induction s as [|c s IH]; simpl; [reflexivity | now rewrite IH].
Qed.

Lemma append_assoc (s1 s2 s3 : string) : (s1 ++ s2) ++ s3 = s1 ++ (s2 ++ s3).
Proof.
  induction s1 as [|c s1 IH]; simpl; [reflexivity | now rewrite IH].
Qed.

Lemma format_container_name (l : string) (i : Z) :
  Py.format "drand_container_%s_%d" [Py.Str l; Py.Int i] = inr (container_name l i).
Proof.
  unfold container_name. cbn. now rewrite append_empty_r.
Qed.

Lemma format_volume_name (l : string) (i : Z) :
  Py.format "drand_volume_%s_%d" [Py.Str l; Py.Int i] = inr (volume_name_of l i).
Proof.
  unfold volume_name_of. cbn. now rewrite append_empty_r.
Qed.

Lemma comprehension_total {A B : Type} (f : A -> result B) (g : A -> B) (xs : list A) :
  (forall x, f x = inr (g x)) -> comprehension f xs = inr (map g xs).
Proof.
  intros Hf. induction xs as [|x xs IH]; simpl.
  - reflexivity.
  - rewrite Hf. simpl. rewrite IH. reflexivity.
Qed.

(** [make_container_list] never raises, and its value is the image of the
    range under [descriptor_of]. *)
Lemma make_container_list_eq (l : string) (c : Z) :
  make_container_list l c = inr (map (descriptor_of l) (Py.range c)).
Proof.
  unfold make_container_list. apply comprehension_total.
  intros i. rewrite format_container_name. cbn [bind Monad_result result_bind].
  rewrite format_volume_name. reflexivity.
Qed.

Lemma range_nonpos (c : Z) : c <= 0 -> Py.range c = [].
Proof.
  intros Hc. unfold Py.range.
  replace (Z.to_nat c) with O by lia. reflexivity.
Qed.

Lemma range_length (c : Z) : List.length (Py.range c) = Z.to_nat c.
Proof.
  unfold Py.range. now rewrite length_map, length_seq.
Qed.

Lemma map_range_block (l : string) (n : nat) :
  map (descriptor_of l) (map Z.of_nat (seq 0 n)) = block_upto l n.
Proof.
  induction n as [|n IH].
  - reflexivity.
  - rewrite seq_S, !map_app, IH. reflexivity.
Qed.

Lemma make_container_list_block (l : string) (c : Z) :
  make_container_list l c = inr (block_of (l, c)).
Proof.
  rewrite make_container_list_eq. unfold block_of, Py.range. simpl.
  now rewrite map_range_block.
Qed.

Lemma block_upto_length (l : string) (n : nat) : List.length (block_upto l n) = n.
Proof.
  induction n as [|n IH]; simpl.
  - reflexivity.
  - rewrite length_app, IH. simpl. lia.
Qed.

Lemma block_upto_nth (l : string) (n i : nat) :
  (i < n)%nat -> nth_error (block_upto l n) i = Some (descriptor_of l (Z.of_nat i)).
Proof.
  induction n as [|n IH]; intros Hi.
  - lia.
  - simpl. destruct (Nat.eq_dec i n) as [->|Hne].
    + rewrite nth_error_app2; rewrite block_upto_length; [|lia].
      now rewrite Nat.sub_diag.
    + rewrite nth_error_app1; [|rewrite block_upto_length; lia].
      apply IH. lia.
Qed.

Lemma block_upto_In (l : string) (n : nat) (h : descriptor) :
  In h (block_upto l n) <-> exists i, (i < n)%nat /\ h = descriptor_of l (Z.of_nat i).
Proof.
  induction n as [|n IH]; simpl.
  - split; [tauto | intros (i & Hi & _); lia].
  - rewrite in_app_iff, IH. simpl. split.
    + intros [(i & Hi & ->) | [<- | []]].
      * exists i. split; [lia | reflexivity].
      * exists n. split; [lia | reflexivity].
    + intros (i & Hi & ->). destruct (Nat.eq_dec i n) as [->|Hne].
      * right. now left.
      * left. exists i. split; [lia | reflexivity].
Qed.

(** ** The loop over the items *)

Lemma hostlist_loop_eq (its : list (string * Z)) (acc : list descriptor) :
  hostlist_loop its acc = inr (acc ++ flat_map block_of its)%list.
Proof.
  revert acc. induction its as [|[l c] its IH]; intros acc; simpl.
  - now rewrite app_nil_r.
  - rewrite make_container_list_block. simpl. rewrite IH.
    now rewrite <- app_assoc.
Qed.

Lemma build_hostlist_eq (d : dict) :
  build_hostlist d = inr (flat_map block_of (items d)).
Proof.
  unfold build_hostlist. now rewrite hostlist_loop_eq.
Qed.

Lemma flat_map_block_length (its : list (string * Z)) :
  Forall (fun c => 0 <= c) (map snd its) ->
  Z.of_nat (List.length (flat_map block_of its)) = sum_counts (map snd its).
Proof.
  induction its as [|[l c] its IH]; simpl; intros Hnn.
  - reflexivity.
  - inversion Hnn as [|? ? Hc Hrest]; subst.
    rewrite length_app, Nat2Z.inj_add, IH by assumption.
    unfold block_of. simpl. rewrite block_upto_length. lia.
Qed.

(** ** Names determine the label and the index *)

Lemma digits_no_underscore (d : Decimal.uint) :
  Py.mem_char "_" (NilEmpty.string_of_uint d) = false.
Proof.
  induction d; simpl; auto.
Qed.

Lemma str_of_int_no_underscore (z : Z) : Py.mem_char "_" (Py.str_of_int z) = false.
Proof.
  unfold Py.str_of_int.
  destruct (Z.to_int z) as [d|d]; simpl;
    destruct d; simpl; auto using digits_no_underscore.
Qed.

Lemma mem_char_append (c : ascii) (s1 s2 : string) :
  Py.mem_char c (s1 ++ s2) = Py.mem_char c s1 || Py.mem_char c s2.
Proof.
  induction s1 as [|a s1 IH]; simpl.
  - reflexivity.
  - now rewrite IH, orb_assoc.
Qed.

(** A string that ends in an underscore followed by underscore-free text
    splits in one way only: at its last underscore. *)
Lemma split_last_underscore (l1 l2 d1 d2 : string) :
  Py.mem_char "_" d1 = false -> Py.mem_char "_" d2 = false ->
  l1 ++ String "_" d1 = l2 ++ String "_" d2 ->
  l1 = l2 /\ d1 = d2.
Proof.
  intros H1 H2. revert l2.
  induction l1 as [|a l1 IH]; intros [|b l2]; simpl; intros Heq.
  - injection Heq as ->. now split.
  - injection Heq as <- ->.
    rewrite mem_char_append in H1. simpl in H1.
    rewrite orb_true_r in H1. discriminate.
  - injection Heq as -> <-.
    rewrite mem_char_append in H2. simpl in H2.
    rewrite orb_true_r in H2. discriminate.
  - injection Heq as -> Heq.
    destruct (IH _ Heq) as [-> ->]. now split.
Qed.

Lemma to_int_not_nil (z : Z) :
  Z.to_int z <> Decimal.Pos Decimal.Nil /\ Z.to_int z <> Decimal.Neg Decimal.Nil.
Proof.
  destruct z as [|p|p]; simpl; split; try discriminate;
    intros [= H]; now apply (DecimalPos.Unsigned.to_uint_nonnil p).
Qed.

Lemma str_of_int_inj (i j : Z) : Py.str_of_int i = Py.str_of_int j -> i = j.
Proof.
  unfold Py.str_of_int. intros H.
  destruct (to_int_not_nil i) as [Hi1 Hi2].
  destruct (to_int_not_nil j) as [Hj1 Hj2].
  pose proof (NilZero.isi _ Hi1 Hi2) as Ei.
  pose proof (NilZero.isi _ Hj1 Hj2) as Ej.
  rewrite H, Ej in Ei. injection Ei as Ei.
  rewrite <- (DecimalZ.of_to i), <- (DecimalZ.of_to j). now rewrite Ei.
Qed.

Lemma append_cancel_l (p x y : string) : p ++ x = p ++ y -> x = y.
Proof.
  induction p as [|c p IH]; simpl; intros H.
  - exact H.
  - injection H as H. auto.
Qed.

Lemma labelled_inj (prefix l l' : string) (i i' : Z) :
  prefix ++ l ++ "_" ++ Py.str_of_int i = prefix ++ l' ++ "_" ++ Py.str_of_int i' ->
  l = l' /\ i = i'.
Proof.
  intros H. apply append_cancel_l in H.
  apply split_last_underscore in H; auto using str_of_int_no_underscore.
  destruct H as [-> H]. split; [reflexivity | now apply str_of_int_inj].
Qed.

Lemma container_name_inj (l l' : string) (i i' : Z) :
  container_name l i = container_name l' i' -> l = l' /\ i = i'.
Proof. apply labelled_inj. Qed.

Lemma volume_name_of_inj (l l' : string) (i i' : Z) :
  volume_name_of l i = volume_name_of l' i' -> l = l' /\ i = i'.
Proof. apply labelled_inj. Qed.

(** ** No repetition under a projection that determines label and index *)

Section Distinct.

Variable key : descriptor -> string.
Hypothesis key_inj : forall l l' i i',
  key (descriptor_of l i) = key (descriptor_of l' i') -> l = l' /\ i = i'.

Lemma block_upto_key_NoDup (l : string) (n : nat) :
  NoDup (map key (block_upto l n)).
Proof.
  induction n as [|n IH]; simpl.
  - constructor.
  - rewrite map_app. apply NoDup_app; [exact IH | repeat constructor; simpl; tauto |].
    intros s Hs [<- | []].
    apply in_map_iff in Hs as (h & Hk & Hh).
    apply block_upto_In in Hh as (i & Hi & ->).
    apply key_inj in Hk as [_ Hk]. lia.
Qed.

Lemma flat_map_block_In (its : list (string * Z)) (h : descriptor) :
  In h (flat_map block_of its) <->
  exists l c i, In (l, c) its /\ 0 <= i < c /\ h = descriptor_of l i.
Proof.
  rewrite in_flat_map. split.
  - intros ([l c] & Hin & Hh). unfold block_of in Hh. simpl in Hh.
    apply block_upto_In in Hh as (i & Hi & ->).
    exists l, c, (Z.of_nat i). repeat split; auto; lia.
  - intros (l & c & i & Hin & Hi & ->). exists (l, c). split; [exact Hin|].
    unfold block_of. simpl. apply block_upto_In.
    exists (Z.to_nat i). split; [lia | now rewrite Z2Nat.id by lia].
Qed.

Lemma flat_map_block_key_NoDup (its : list (string * Z)) :
  NoDup (map fst its) -> NoDup (map key (flat_map block_of its)).
Proof.
  induction its as [|[l c] its IH]; simpl; intros Hnd.
  - constructor.
  - inversion Hnd as [|? ? Hnotin Hnd']; subst.
    rewrite map_app. apply NoDup_app.
    + apply block_upto_key_NoDup.
    + auto.
    + intros s Hs1 Hs2.
      apply in_map_iff in Hs1 as (h1 & Hk1 & Hh1).
      apply in_map_iff in Hs2 as (h2 & Hk2 & Hh2).
      apply block_upto_In in Hh1 as (i1 & _ & ->).
      apply flat_map_block_In in Hh2 as (l2 & c2 & i2 & Hin2 & _ & ->).
      rewrite <- Hk2 in Hk1. apply key_inj in Hk1 as [Hl _].
      simpl in Hl. subst l2.
      apply Hnotin. apply in_map_iff. now exists (l, c2).
Qed.

End Distinct.

(** ** The claims about the host list *)

(** C1. For every dictionary from distinct labels to non-negative counts the
    builder returns a host list, and the length of that list is the sum of
    the counts. *)
Theorem hostlist_length_is_sum_of_counts (d : dict) :
  dict_wf d ->
  Forall (fun c => 0 <= c) (values d) ->
  exists hostlist,
    build_hostlist d = inr hostlist /\
    Z.of_nat (List.length hostlist) = sum_counts (values d).
Proof.
  intros _ Hnn. exists (flat_map block_of (items d)). split.
  - apply build_hostlist_eq.
  - now apply flat_map_block_length.
Qed.

Lemma hostlist_length_is_sum_of_counts_witness :
  exists hostlist,
    build_hostlist latencies_to_node_count = inr hostlist /\
    Z.of_nat (List.length hostlist) = 10.
Proof.
  apply (hostlist_length_is_sum_of_counts latencies_to_node_count).
  - unfold dict_wf. vm_compute.
    repeat (constructor; [simpl; intuition discriminate|]). constructor.
  - vm_compute. repeat (constructor; [discriminate|]). constructor.
Defined.

(** C2. The descriptor that [make_container_list] generates for a label at
    the zero-based index [index] has the name "drand_container_{label}_{index}",
    the latency [label] and the volume name "drand_volume_{label}_{index}";
    every descriptor of a host list is of this form for an item of the
    dictionary and an index below its count. *)
Theorem generated_descriptor_fields :
  (forall label count index,
      0 <= index < count ->
      exists block h,
        make_container_list label count = inr block /\
        nth_error block (Z.to_nat index) = Some h /\
        name h = "drand_container_" ++ label ++ "_" ++ Py.str_of_int index /\
        latency h = label /\
        volume_name h = "drand_volume_" ++ label ++ "_" ++ Py.str_of_int index) /\
  (forall d hostlist h,
      build_hostlist d = inr hostlist ->
      In h hostlist ->
      exists label count index,
        In (label, count) (items d) /\ 0 <= index < count /\
        name h = "drand_container_" ++ label ++ "_" ++ Py.str_of_int index /\
        latency h = label /\
        volume_name h = "drand_volume_" ++ label ++ "_" ++ Py.str_of_int index).
Proof.
  split.
  - intros label count index Hi.
    exists (block_of (label, count)), (descriptor_of label index).
    split; [apply make_container_list_block|].
    split; [|repeat split].
    unfold block_of. simpl.
    rewrite block_upto_nth by lia. now rewrite Z2Nat.id by lia.
  - intros d hostlist h Hb Hin.
    rewrite build_hostlist_eq in Hb. injection Hb as <-.
    apply flat_map_block_In in Hin as (l & c & i & Hlc & Hi & ->).
    exists l, c, i. repeat split; auto; lia.
Qed.

Lemma generated_descriptor_fields_witness :
  exists block h,
    make_container_list "300ms" 3 = inr block /\
    nth_error block 2 = Some h /\
    name h = "drand_container_300ms_2" /\
    latency h = "300ms" /\
    volume_name h = "drand_volume_300ms_2".
Proof.
  destruct generated_descriptor_fields as [H _].
  apply (H "300ms" 3 2). lia.
Defined.

(** C3. For each item [(label, count)] of the dictionary the builder appends
    the block of the [count] descriptors with the indices [0 .. count-1], in
    increasing order of the index, and the blocks follow one another in the
    order of the items; the dictionary [{"100ms": 1, "200ms": 2}] gives the
    three descriptors of the scenario, in that order. *)
Theorem hostlist_is_blocks_in_item_order :
  (forall d, build_hostlist d = inr (List.concat (map block_of (items d)))) /\
  (forall label count,
      0 <= count -> Z.of_nat (List.length (block_of (label, count))) = count) /\
  (forall label count index,
      0 <= index < count ->
      nth_error (block_of (label, count)) (Z.to_nat index)
      = Some (descriptor_of label index)) /\
  build_hostlist (dict_display [("100ms", 1); ("200ms", 2)])
  = inr [ {| name := "drand_container_100ms_0"; latency := "100ms";
             volume_name := "drand_volume_100ms_0" |};
          {| name := "drand_container_200ms_0"; latency := "200ms";
             volume_name := "drand_volume_200ms_0" |};
          {| name := "drand_container_200ms_1"; latency := "200ms";
             volume_name := "drand_volume_200ms_1" |} ].
Proof.
  repeat split.
  - intros d. rewrite build_hostlist_eq. now rewrite flat_map_concat_map.
  - intros label count Hc. unfold block_of. simpl.
    rewrite block_upto_length. lia.
  - intros label count index Hi. unfold block_of. simpl.
    rewrite block_upto_nth by lia. now rewrite Z2Nat.id by lia.
Qed.

Lemma hostlist_is_blocks_in_item_order_witness :
  Z.of_nat (List.length (block_of ("400ms", 4))) = 4 /\
  nth_error (block_of ("400ms", 4)) 3 = Some (descriptor_of "400ms" 3).
Proof.
  destruct hostlist_is_blocks_in_item_order as (_ & Hlen & Hnth & _).
  split.
  - apply (Hlen "400ms" 4). lia.
  - apply (Hnth "400ms" 4 3). lia.
Defined.

(** C4. For every dictionary with distinct labels and non-negative counts,
    no two descriptors of the host list have the same name, and no two have
    the same volume name. *)
Theorem names_and_volumes_pairwise_distinct (d : dict) :
  dict_wf d ->
  Forall (fun c => 0 <= c) (values d) ->
  exists hostlist,
    build_hostlist d = inr hostlist /\
    NoDup (map name hostlist) /\
    NoDup (map volume_name hostlist).
Proof.
  intros Hwf _. exists (flat_map block_of (items d)).
  split; [apply build_hostlist_eq|]. split.
  - apply flat_map_block_key_NoDup; [|exact Hwf].
    intros l l' i i'. apply container_name_inj.
  - apply flat_map_block_key_NoDup; [|exact Hwf].
    intros l l' i i'. apply volume_name_of_inj.
Qed.

Lemma names_and_volumes_pairwise_distinct_witness :
  exists hostlist,
    build_hostlist latencies_to_node_count = inr hostlist /\
    NoDup (map name hostlist) /\
    NoDup (map volume_name hostlist).
Proof.
  apply (names_and_volumes_pairwise_distinct latencies_to_node_count).
  - unfold dict_wf. vm_compute.
    repeat (constructor; [simpl; intuition discriminate|]). constructor.
  - vm_compute. repeat (constructor; [discriminate|]). constructor.
Defined.

(** C6. A label whose count is 0 gets no descriptor, and the host list is the
    same as without that item: the descriptors of the other labels keep
    their indices, names and positions. *)
Theorem zero_count_contributes_nothing (label : string) :
  make_container_list label 0 = inr [] /\
  (forall before after : dict,
      build_hostlist (before ++ (label, 0) :: after)%list
      = build_hostlist (before ++ after)%list) /\
  (forall d hostlist h,
      dict_wf d -> In (label, 0) (items d) ->
      build_hostlist d = inr hostlist -> In h hostlist ->
      latency h <> label).
Proof.
  split; [reflexivity|]. split.
  - intros before after. rewrite !build_hostlist_eq. unfold items.
    now rewrite !flat_map_app.
  - intros d hostlist h Hwf Hzero Hb Hin Hlat.
    rewrite build_hostlist_eq in Hb. injection Hb as <-.
    apply flat_map_block_In in Hin as (l & c & i & Hlc & Hi & ->).
    simpl in Hlat. subst l.
    assert (c = 0); [|lia].
    unfold dict_wf, keys, items in *. clear Hi.
    induction d as [|[k v] d IH]; simpl in *; [contradiction|].
    inversion Hwf as [|? ? Hnotin Hwf']; subst.
    destruct Hzero as [Hz|Hz], Hlc as [Hl|Hl].
    + congruence.
    + injection Hz as -> ->. exfalso. apply Hnotin.
      apply in_map_iff. now exists (label, c).
    + injection Hl as -> ->. exfalso. apply Hnotin.
      apply in_map_iff. now exists (label, 0).
    + now apply IH.
Qed.

Lemma zero_count_contributes_nothing_witness :
  latency (descriptor_of "200ms" 1) <> "100ms".
Proof.
  destruct (zero_count_contributes_nothing "100ms") as (_ & _ & H).
  apply (H [("100ms", 0); ("200ms", 2)]
           [descriptor_of "200ms" 0; descriptor_of "200ms" 1]).
  - unfold dict_wf. simpl.
    repeat (constructor; [simpl; intuition discriminate|]). constructor.
  - simpl. now left.
  - reflexivity.
  - simpl. right. now left.
Defined.

(** C9. For a count that is zero or negative [make_container_list] returns
    the empty list and raises nothing. *)
Theorem nonpositive_count_gives_empty_list (label : string) (count : Z) :
  count <= 0 -> make_container_list label count = inr [].
Proof.
  intros Hc. rewrite make_container_list_eq, range_nonpos by exact Hc.
  reflexivity.
Qed.

Lemma nonpositive_count_gives_empty_list_witness :
  make_container_list "100ms" (-3) = inr [].
Proof.
  apply (nonpositive_count_gives_empty_list "100ms" (-3)). lia.
Defined.

(** * Properties of the renderer *)

(** The run of [main.py], case by case. *)
Lemma main_steps
    (Template : Type) (compile : string -> string + Template)
    (render : Template -> list descriptor -> result string)
    (read_file : string -> string -> option string) :
  main Template compile render read_file [] =
  match read_file "./" "docker-compose.yaml.j2" with
  | None => (inl (TemplateNotFound "docker-compose.yaml.j2"), [])
  | Some source =>
      match compile source with
      | inl message => (inl (TemplateSyntaxError message), [])
      | inr t =>
          match build_hostlist latencies_to_node_count with
          | inl e => (inl e, [])
          | inr hostlist =>
              match render t hostlist with
              | inl e => (inl e, [Render hostlist])
              | inr text => (inr tt, [Render hostlist; Write text; Write LF])
              end
          end
      end
  end.
Proof.
  unfold main, get_template.
  generalize (build_hostlist latencies_to_node_count). intros built.
  destruct (read_file "./" "docker-compose.yaml.j2") as [source|]; [|reflexivity].
  destruct (compile source) as [message|t]; [reflexivity|].
  destruct built as [e|hostlist]; [reflexivity|].
  unfold template_render, print. cbn.
  destruct (render t hostlist) as [e|text]; reflexivity.
Qed.

(** C7. When the template file is missing the run ends with the uncaught
    exception [TemplateNotFound], when its source does not compile with
    [TemplateSyntaxError]; in both cases the exit status is not zero, nothing
    was rendered and nothing was written to standard output.  Otherwise the
    template is rendered once, with the host list, and the text that the
    rendering returns is what standard output receives, followed by the line
    end of [print]. *)
Theorem template_errors_end_the_run
    (Template : Type) (compile : string -> string + Template)
    (render : Template -> list descriptor -> result string)
    (read_file : string -> string -> option string) :
  let out := run (main Template compile render read_file) in
  (read_file "./" "docker-compose.yaml.j2" = None ->
     uncaught out = Some (TemplateNotFound "docker-compose.yaml.j2") /\
     exit_status out <> 0 /\
     render_calls (trace out) = [] /\
     stdout_of (trace out) = EmptyString) /\
  (forall source message,
     read_file "./" "docker-compose.yaml.j2" = Some source ->
     compile source = inl message ->
     uncaught out = Some (TemplateSyntaxError message) /\
     exit_status out <> 0 /\
     render_calls (trace out) = [] /\
     stdout_of (trace out) = EmptyString) /\
  (forall source t,
     read_file "./" "docker-compose.yaml.j2" = Some source ->
     compile source = inr t ->
     exists hostlist,
       build_hostlist latencies_to_node_count = inr hostlist /\
       render_calls (trace out) = [hostlist] /\
       forall text,
         render t hostlist = inr text ->
         stdout_of (trace out) = text ++ LF /\
         exit_status out = 0 /\
         uncaught out = None).
Proof.
  intros out. subst out. unfold run. rewrite main_steps.
  split; [|split].
  - intros ->. cbn. repeat split. discriminate.
  - intros source message -> ->. cbn. repeat split. discriminate.
  - intros source t -> ->. rewrite build_hostlist_eq.
    eexists. split; [reflexivity|].
    destruct (render t _) as [e|text]; cbn.
    + split; [reflexivity|]. intros text [=].
    + split; [reflexivity|]. intros text' [= <-].
      repeat split.
Qed.

Lemma template_errors_end_the_run_witness :
  (let out := run (main string Examples.compile Examples.render (fun _ _ => None)) in
   uncaught out = Some (TemplateNotFound "docker-compose.yaml.j2") /\
   exit_status out <> 0 /\
   render_calls (trace out) = [] /\
   stdout_of (trace out) = EmptyString) /\
  (let out := run (main string Examples.compile Examples.render
                     (fun _ _ => Some "{{ hosts")) in
   uncaught out = Some (TemplateSyntaxError "unexpected end of template") /\
   exit_status out <> 0 /\
   render_calls (trace out) = [] /\
   stdout_of (trace out) = EmptyString) /\
  (let out := run (main string Examples.compile Examples.render Examples.read_file) in
   exit_status out = 0 /\ uncaught out = None).
Proof.
  split; [|split].
  - destruct (template_errors_end_the_run string Examples.compile Examples.render
                (fun _ _ => None)) as (H & _ & _).
    apply H. reflexivity.
  - destruct (template_errors_end_the_run string Examples.compile Examples.render
                (fun _ _ => Some "{{ hosts")) as (_ & H & _).
    apply (H "{{ hosts"); reflexivity.
  - destruct (template_errors_end_the_run string Examples.compile Examples.render
                Examples.read_file) as (_ & _ & H).
    destruct (H "services: " "services: ") as (hostlist & _ & _ & Hout);
      [reflexivity | reflexivity |].
    apply (Hout ("services: " ++ Script.join (map name hostlist))). reflexivity.
Defined.

(** * Properties of the file server *)

(** ** The entry point *)

(** C8. The port handed to the server is the integer value of the first
    command-line argument when there is one, and 8000 when there is none;
    arguments after the first are ignored. *)
Theorem port_is_argument_or_8000 (int : string -> option Z) (argv : list string) :
  ((List.length argv <= 1)%nat ->
     Script.main int argv
     = inr (Script.test Script.CORSRequestHandler.class Script.HTTPServer 8000)) /\
  (forall program arg rest n,
     argv = program :: arg :: rest ->
     int arg = Some n ->
     Script.main int argv
     = inr (Script.test Script.CORSRequestHandler.class Script.HTTPServer n)).
Proof.
  unfold Script.main. split.
  - intros Hlen. destruct (Nat.ltb_spec 1 (List.length argv)) as [Hlt|_]; [lia|].
    reflexivity.
  - intros program arg rest n -> Hint. simpl. rewrite Hint. reflexivity.
Qed.

Lemma port_is_argument_or_8000_witness :
  Script.main Examples.int ["script.py"]
  = inr (Script.test Script.CORSRequestHandler.class Script.HTTPServer 8000) /\
  Script.main Examples.int ["script.py"; "8080"]
  = inr (Script.test Script.CORSRequestHandler.class Script.HTTPServer 8080).
Proof.
  split.
  - destruct (port_is_argument_or_8000 Examples.int ["script.py"]) as [H _].
    apply H. simpl. lia.
  - destruct (port_is_argument_or_8000 Examples.int ["script.py"; "8080"]) as [_ H].
    apply (H "script.py" "8080" []); reflexivity.
Defined.

(** C10. When a first argument is present and [int] rejects it, the script
    raises [ValueError] before the call of [test]: no server is started, on
    the port 8000 or on any other. *)
Theorem unparsable_port_raises_ValueError
    (int : string -> option Z) (program arg : string) (rest : list string) :
  int arg = None ->
  Script.main int (program :: arg :: rest) = inl ValueError /\
  (forall started, Script.main int (program :: arg :: rest) <> inr started).
Proof.
  intros Hint. unfold Script.main. simpl. rewrite Hint. split.
  - reflexivity.
  - intros started. discriminate.
Qed.

Lemma unparsable_port_raises_ValueError_witness :
  Script.main Examples.int ["script.py"; "http"] = inl ValueError.
Proof.
  apply (unparsable_port_raises_ValueError Examples.int "script.py" "http" []).
  reflexivity.
Defined.

(** ** The header of the responses *)

Import Script.

Lemma join_app (xs ys : list string) : join (xs ++ ys) = join xs ++ join ys.
Proof.
  induction xs as [|x xs IH]; simpl.
  - reflexivity.
  - now rewrite IH, append_assoc.
Qed.

Lemma prefix_append (p s : string) : String.prefix p (p ++ s) = true.
Proof.
  induction p as [|c p IH]; simpl.
  - now destruct s.
  - destruct (ascii_dec c c) as [_|Hne]; [exact IH | now elim Hne].
Qed.

Lemma contains_prefix (needle hay : string) :
  String.prefix needle hay = true -> contains needle hay = true.
Proof.
  intros H. destruct hay; cbn [contains]; rewrite H; reflexivity.
Qed.

Lemma contains_append (needle before after : string) :
  contains needle (before ++ needle ++ after) = true.
Proof.
  induction before as [|c before IH].
  - cbn [String.append]. apply contains_prefix, prefix_append.
  - cbn [String.append contains]. rewrite IH. apply orb_true_r.
Qed.

Lemma versioned_eqb (self : handler) :
  request_version self <> "HTTP/0.9" ->
  String.eqb (request_version self) "HTTP/0.9" = false.
Proof. intros H. now apply String.eqb_neq. Qed.

(** For a request with a version, [send_header] puts its line at the end of
    the buffer. *)
Lemma send_header_queued (keyword value : string) (self : handler) :
  request_version self <> "HTTP/0.9" ->
  queued self [header_line keyword value]
         (BaseHTTPRequestHandler.send_header keyword value self).
Proof.
  intros Hv. unfold BaseHTTPRequestHandler.send_header.
  rewrite (versioned_eqb self Hv).
  destruct (String.eqb (lower keyword) "connection");
    [destruct (String.eqb (lower value) "close");
     [|destruct (String.eqb (lower value) "keep-alive")]|];
    repeat split.
Qed.

Lemma send_response_only_queued (env : environment) (code : Z)
    (message : option string) (self : handler) :
  request_version self <> "HTTP/0.9" ->
  queued self
    [status_line (protocol_version self) code
       (BaseHTTPRequestHandler.reason_phrase env code message)]
    (BaseHTTPRequestHandler.send_response_only env code message self).
Proof.
  intros Hv. unfold BaseHTTPRequestHandler.send_response_only.
  rewrite (versioned_eqb self Hv). repeat split.
Qed.

Lemma queued_pending (self self' : handler) (lines : list string) :
  queued self lines self' -> pending self' = (pending self ++ lines)%list.
Proof.
  intros (Hb & _). unfold pending at 1. now rewrite Hb.
Qed.

Lemma queued_trans (a b c : handler) (l1 l2 : list string) :
  queued a l1 b -> queued b l2 c -> queued a (l1 ++ l2) c.
Proof.
  intros Hab Hbc. pose proof (queued_pending _ _ _ Hab) as Hp.
  destruct Hab as (_ & Hw1 & Hv1 & Hc1 & Hp1 & Hq1).
  destruct Hbc as (Hb2 & Hw2 & Hv2 & Hc2 & Hp2 & Hq2).
  unfold queued. rewrite Hb2, Hp, app_assoc. repeat split; congruence.
Qed.

Lemma queued_versioned (a b : handler) (lines : list string) :
  queued a lines b -> request_version a <> "HTTP/0.9" -> request_version b <> "HTTP/0.9".
Proof.
  intros (_ & _ & Hv & _) H. now rewrite Hv.
Qed.

Lemma send_response_queued (env : environment) (code : Z)
    (message : option string) (self : handler) :
  request_version self <> "HTTP/0.9" ->
  queued self
    [status_line (protocol_version self) code
       (BaseHTTPRequestHandler.reason_phrase env code message);
     header_line "Server" (version_string env);
     header_line "Date" (date_time_string env)]
    (BaseHTTPRequestHandler.send_response env code message self).
Proof.
  intros Hv. unfold BaseHTTPRequestHandler.send_response.
  pose proof (send_response_only_queued env code message self Hv) as H1.
  pose proof (send_header_queued "Server" (version_string env) _
                (queued_versioned _ _ _ H1 Hv)) as H2.
  pose proof (queued_trans _ _ _ _ _ H1 H2) as H12.
  pose proof (send_header_queued "Date" (date_time_string env) _
                (queued_versioned _ _ _ H12 Hv)) as H3.
  exact (queued_trans _ _ _ _ _ H12 H3).
Qed.

(** The two classes. *)
Lemma simple_closes : closes_with EmptyString SimpleHTTPRequestHandler.class.
Proof.
  intros self Hv Hb. simpl.
  unfold SimpleHTTPRequestHandler.end_headers, BaseHTTPRequestHandler.end_headers.
  rewrite (versioned_eqb self Hv). unfold pending.
  destruct (headers_buffer self) as [b|]; [|contradiction].
  eexists. split; [reflexivity|]. simpl. split; [|reflexivity].
  now rewrite join_app; simpl.
Qed.

Lemma cors_end_headers_versioned (self : handler) :
  request_version self <> "HTTP/0.9" ->
  exists self',
    CORSRequestHandler.end_headers self = inr self' /\
    wfile self' = wfile self ++ join (pending self) ++ cors_line ++ CRLF /\
    command self' = command self.
Proof.
  intros Hv. unfold CORSRequestHandler.end_headers. cbn zeta.
  pose proof (send_header_queued "Access-Control-Allow-Origin" "*" self Hv)
    as (Hb & Hw & Hrv & Hc & _).
  unfold SimpleHTTPRequestHandler.end_headers, BaseHTTPRequestHandler.end_headers.
  rewrite Hrv, (versioned_eqb self Hv), Hb.
  eexists. split; [reflexivity|]. simpl. split; [|exact Hc].
  rewrite Hw, !join_app. simpl. rewrite append_assoc. reflexivity.
Qed.

Lemma cors_closes : closes_with cors_line CORSRequestHandler.class.
Proof.
  intros self Hv _. now apply cors_end_headers_versioned.
Qed.

(** A header phase followed by [end_headers] of the class. *)
Lemma close_after_queued (extra : string) (cls : handler_class)
    (self pre : handler) (lines : list string) :
  closes_with extra cls ->
  request_version self <> "HTTP/0.9" ->
  queued self lines pre ->
  exists self',
    class_end_headers cls pre = inr self' /\
    wfile self' = wfile self ++ join (pending self ++ lines) ++ extra ++ CRLF /\
    command self' = command self.
Proof.
  intros Hcls Hv Hq.
  pose proof (queued_pending _ _ _ Hq) as Hp.
  destruct (Hcls pre) as (self' & Hend & Hw & Hc).
  - exact (queued_versioned _ _ _ Hq Hv).
  - destruct Hq as (Hb & _). rewrite Hb. discriminate.
  - exists self'. destruct Hq as (_ & Hw0 & _ & Hc0 & _).
    rewrite Hend, Hw, Hc, Hp, Hw0, Hc0. repeat split.
Qed.


Lemma prefix_status_line (protocol : string) (code : Z) (message rest : string) :
  String.prefix (protocol ++ " " ++ Py.str_of_int code ++ " ")
                (status_line protocol code message ++ rest) = true.
Proof.
  unfold status_line.
  replace ((protocol ++ " " ++ Py.str_of_int code ++ " " ++ message ++ CRLF) ++ rest)
    with ((protocol ++ " " ++ Py.str_of_int code ++ " ") ++ (message ++ CRLF ++ rest)).
  - apply prefix_append.
  - now rewrite !append_assoc.
Qed.

(** The bytes of an error response for a request with a version: the buffered
    lines, the status line and the headers of [send_error], what the class
    adds, the blank line, and the body. *)
Lemma send_error_bytes (env : environment) (code : Z) (message : option string)
    (self : handler) :
  request_version self <> "HTTP/0.9" ->
  exists reason rest body,
    (forall m, message = Some m -> reason = m) /\
    forall extra cls,
      closes_with extra cls ->
      exists self',
        BaseHTTPRequestHandler.send_error cls env code message self = inr self' /\
        wfile self'
        = wfile self
          ++ join (pending self
                   ++ status_line (protocol_version self) code reason :: rest)
          ++ extra ++ CRLF ++ body.
Proof.
  intros Hv. unfold BaseHTTPRequestHandler.send_error.
  destruct (match responses env code with Some sl => sl | None => ("???", "???") end)
    as [shortmsg longmsg].
  cbv zeta.
  set (reason := match message with Some m => m | None => shortmsg end).
  set (page := error_page env code reason longmsg).
  pose proof (send_response_queued env code (Some reason) self Hv) as H1.
  pose proof (send_header_queued "Connection" "close" _
                (queued_versioned _ _ _ H1 Hv)) as H2.
  pose proof (queued_trans _ _ _ _ _ H1 H2) as H12.
  exists reason.
  destruct (BaseHTTPRequestHandler.body_omitted code).
  - exists [header_line "Server" (version_string env);
            header_line "Date" (date_time_string env);
            header_line "Connection" "close"], EmptyString.
    split; [intros m ->; reflexivity|].
    intros extra cls Hcls.
    destruct (close_after_queued extra cls _ _ _ Hcls Hv H12) as (s' & Hend & Hw & _).
    rewrite Hend. exists s'. split; [reflexivity|].
    rewrite Hw. reflexivity.
  - pose proof (send_header_queued "Content-Type" "text/html;charset=utf-8" _
                  (queued_versioned _ _ _ H12 Hv)) as H3.
    pose proof (queued_trans _ _ _ _ _ H12 H3) as H123.
    pose proof (send_header_queued "Content-Length"
                  (Py.str_of_int (Z.of_nat (String.length page))) _
                  (queued_versioned _ _ _ H123 Hv)) as H4.
    pose proof (queued_trans _ _ _ _ _ H123 H4) as Hq.
    clear H1 H2 H12 H3 H123 H4.
    exists [header_line "Server" (version_string env);
            header_line "Date" (date_time_string env);
            header_line "Connection" "close";
            header_line "Content-Type" "text/html;charset=utf-8";
            header_line "Content-Length"
              (Py.str_of_int (Z.of_nat (String.length page)))].
    exists (if negb (String.eqb (command self) "HEAD")
               && negb (String.eqb page EmptyString)
            then page else EmptyString).
    split; [intros m ->; reflexivity|].
    intros extra cls Hcls.
    destruct (close_after_queued extra cls _ _ _ Hcls Hv Hq) as (s' & Hend & Hw & Hc).
    rewrite Hend. cbn [bind Monad_result result_bind ret].
    rewrite Hc.
    destruct (negb (String.eqb (command self) "HEAD")
              && negb (String.eqb page EmptyString)).
    + eexists. split; [reflexivity|]. cbn [wfile wfile_write]. rewrite Hw.
      rewrite !append_assoc. reflexivity.
    + exists s'. split; [reflexivity|]. rewrite Hw. reflexivity.
Qed.

Lemma send_header_other (keyword value : string) (self : handler) :
  String.eqb (lower keyword) "connection" = false ->
  BaseHTTPRequestHandler.send_header keyword value self
  = if String.eqb (request_version self) "HTTP/0.9" then self
    else BaseHTTPRequestHandler.buffer_append (header_line keyword value) self.
Proof.
  intros Hk. unfold BaseHTTPRequestHandler.send_header. now rewrite Hk.
Qed.

Lemma end_headers_http09 (self : handler) :
  request_version self = "HTTP/0.9" ->
  CORSRequestHandler.end_headers self = inr self /\
  SimpleHTTPRequestHandler.end_headers self = inr self.
Proof.
  intros H09. unfold CORSRequestHandler.end_headers. cbn zeta.
  rewrite send_header_other by reflexivity.
  assert (E : String.eqb (request_version self) "HTTP/0.9" = true)
    by (rewrite H09; reflexivity).
  rewrite E.
  unfold SimpleHTTPRequestHandler.end_headers, BaseHTTPRequestHandler.end_headers.
  rewrite E. split; reflexivity.
Qed.

(** C5, as the code has it.  While the request version of the handler is not
    HTTP/0.9, every call of [end_headers] of the handler of the script writes
    the buffered header lines, then [Access-Control-Allow-Origin: *], then the
    blank line: the header block that the inherited method would write, with
    that one line added at its end.  An error response of [send_error], such
    as the 404 of a file that does not exist, is then the error response of
    the handler of the library with that line added.  While the request
    version is HTTP/0.9 the method writes nothing. *)
Theorem cors_header_on_versioned_responses :
  (forall self,
     request_version self <> "HTTP/0.9" ->
     exists self',
       CORSRequestHandler.end_headers self = inr self' /\
       wfile self' = wfile self ++ join (pending self) ++ cors_line ++ CRLF) /\
  (forall self b,
     request_version self <> "HTTP/0.9" ->
     headers_buffer self = Some b ->
     exists inherited overridden,
       SimpleHTTPRequestHandler.end_headers self = inr inherited /\
       CORSRequestHandler.end_headers self = inr overridden /\
       wfile inherited = wfile self ++ join b ++ CRLF /\
       wfile overridden = wfile self ++ join b ++ cors_line ++ CRLF) /\
  (forall env code message self,
     request_version self <> "HTTP/0.9" ->
     exists head body inherited overridden,
       String.prefix (protocol_version self ++ " " ++ Py.str_of_int code ++ " ") head
       = true /\
       BaseHTTPRequestHandler.send_error SimpleHTTPRequestHandler.class env code
         message self = inr inherited /\
       BaseHTTPRequestHandler.send_error CORSRequestHandler.class env code
         message self = inr overridden /\
       wfile inherited
       = wfile self ++ join (pending self) ++ head ++ CRLF ++ body /\
       wfile overridden
       = wfile self ++ join (pending self) ++ head ++ cors_line ++ CRLF ++ body /\
       contains cors_line (wfile overridden) = true) /\
  (forall self,
     request_version self = "HTTP/0.9" ->
     CORSRequestHandler.end_headers self = inr self).
Proof.
  split; [|split; [|split]].
  - intros self Hv.
    destruct (cors_end_headers_versioned self Hv) as (self' & Hend & Hw & _).
    now exists self'.
  - intros self b Hv Hb.
    assert (Hsome : headers_buffer self <> None) by (rewrite Hb; discriminate).
    assert (Hp : pending self = b) by (unfold pending; now rewrite Hb).
    destruct (simple_closes self Hv Hsome) as (s0 & H0 & Hw0 & _).
    destruct (cors_closes self Hv Hsome) as (s1 & H1 & Hw1 & _).
    exists s0, s1. simpl in H0, H1. rewrite Hp in Hw0, Hw1.
    repeat split; assumption.
  - intros env code message self Hv.
    destruct (send_error_bytes env code message self Hv)
      as (reason & rest & body & _ & Hbytes).
    destruct (Hbytes EmptyString _ simple_closes) as (s0 & H0 & Hw0).
    destruct (Hbytes cors_line _ cors_closes) as (s1 & H1 & Hw1).
    exists (join (status_line (protocol_version self) code reason :: rest)), body, s0, s1.
    rewrite join_app in Hw0, Hw1. rewrite append_assoc in Hw0, Hw1.
    repeat split; try assumption.
    + apply prefix_status_line.
    + rewrite Hw1.
      rewrite <- (append_assoc (wfile self)), <- append_assoc.
      apply contains_append.
  - intros self H09. now apply end_headers_http09.
Qed.

Lemma cors_header_on_versioned_responses_witness :
  exists head body inherited overridden,
    String.prefix ("HTTP/1.0" ++ " " ++ Py.str_of_int 404 ++ " ") head = true /\
    BaseHTTPRequestHandler.send_error SimpleHTTPRequestHandler.class
      Examples.environment 404 (Some "File not found")
      (handler_for {| request_path := "/missing";
                      request_http_version := Some "HTTP/1.0" |})
    = inr inherited /\
    BaseHTTPRequestHandler.send_error CORSRequestHandler.class
      Examples.environment 404 (Some "File not found")
      (handler_for {| request_path := "/missing";
                      request_http_version := Some "HTTP/1.0" |})
    = inr overridden /\
    wfile inherited = EmptyString ++ join [] ++ head ++ CRLF ++ body /\
    wfile overridden = EmptyString ++ join [] ++ head ++ cors_line ++ CRLF ++ body /\
    contains cors_line (wfile overridden) = true.
Proof.
  destruct cors_header_on_versioned_responses as (_ & _ & H & _).
  apply (H Examples.environment 404 (Some "File not found")
           (handler_for {| request_path := "/missing";
                           request_http_version := Some "HTTP/1.0" |})).
  simpl. discriminate.
Defined.

(** C5, as the claim states it, fails for a request line without a version
    ([GET /missing]): the request is served as HTTP/0.9, the answer is the
    error page alone, and no header goes out. *)
Lemma http09_response_has_no_cors_header :
  serve_GET CORSRequestHandler.class Examples.environment
    {| request_path := "/missing"; request_http_version := None |}
  = inr "<h1>File not found</h1><p>Nothing matches the given URI</p>" /\
  contains "Access-Control-Allow-Origin"
    "<h1>File not found</h1><p>Nothing matches the given URI</p>" = false.
Proof.
  split; vm_compute; reflexivity.
Qed.

(** * Further properties of the host list *)

Lemma flat_map_block_length_clamped (its : list (string * Z)) :
  Z.of_nat (List.length (flat_map block_of its)) = sum_clamped (map snd its).
Proof.
  induction its as [|[l c] its IH]; simpl.
  - reflexivity.
  - rewrite length_app, Nat2Z.inj_add, IH.
    unfold block_of. simpl. rewrite block_upto_length. lia.
Qed.

(** X1. The builder returns a host list for every dictionary, whatever the
    labels and the counts; its length is the sum of the counts in which a
    negative count is taken as zero. *)
Theorem hostlist_length_clamps_negative_counts (d : dict) :
  exists hostlist,
    build_hostlist d = inr hostlist /\
    Z.of_nat (List.length hostlist) = sum_clamped (values d).
Proof.
  exists (flat_map block_of (items d)). split.
  - apply build_hostlist_eq.
  - apply flat_map_block_length_clamped.
Qed.

Lemma make_container_list_In (l : string) (c : Z) (block : list descriptor)
    (h : descriptor) :
  make_container_list l c = inr block ->
  In h block ->
  exists i, 0 <= i < c /\ h = descriptor_of l i.
Proof.
  rewrite make_container_list_block. intros [= <-] Hin.
  unfold block_of in Hin. simpl in Hin.
  apply block_upto_In in Hin as (i & Hi & ->).
  exists (Z.of_nat i). split; [lia | reflexivity].
Qed.

(** X2. Two descriptors that come out of [make_container_list], from the same
    call or from two calls with any labels and counts, and that have the same
    name or the same volume name, are the same descriptor: the name alone
    determines the label and the index, also for labels that contain
    underscores or digits. *)
Theorem equal_names_equal_descriptors
    (l l' : string) (c c' : Z) (block block' : list descriptor) (h h' : descriptor) :
  make_container_list l c = inr block ->
  make_container_list l' c' = inr block' ->
  In h block -> In h' block' ->
  name h = name h' \/ volume_name h = volume_name h' ->
  h = h'.
Proof.
  intros Hb Hb' Hin Hin' Heq.
  destruct (make_container_list_In _ _ _ _ Hb Hin) as (i & _ & ->).
  destruct (make_container_list_In _ _ _ _ Hb' Hin') as (i' & _ & ->).
  simpl in Heq. destruct Heq as [Heq|Heq].
  - apply container_name_inj in Heq as [-> ->]. reflexivity.
  - apply volume_name_of_inj in Heq as [-> ->]. reflexivity.
Qed.

Lemma equal_names_equal_descriptors_witness :
  descriptor_of "my_lab_1" 1 = descriptor_of "my_lab_1" 1.
Proof.
  apply (equal_names_equal_descriptors "my_lab_1" "my_lab_1" 2 3
           [descriptor_of "my_lab_1" 0; descriptor_of "my_lab_1" 1]
           [descriptor_of "my_lab_1" 0; descriptor_of "my_lab_1" 1;
            descriptor_of "my_lab_1" 2]).
  - reflexivity.
  - reflexivity.
  - simpl. right. now left.
  - simpl. right. now left.
  - left. reflexivity.
Defined.

(** X3. In a generated descriptor the name and the volume name are the two
    prefixes in front of one and the same suffix, and the name of a generated
    descriptor is never the volume name of a generated descriptor. *)
Theorem container_and_volume_names
    (l : string) (c : Z) (block : list descriptor) (h : descriptor) :
  make_container_list l c = inr block ->
  In h block ->
  (exists suffix,
      name h = "drand_container_" ++ suffix /\
      volume_name h = "drand_volume_" ++ suffix) /\
  (forall l' c' block' h',
      make_container_list l' c' = inr block' ->
      In h' block' ->
      name h <> volume_name h').
Proof.
  intros Hb Hin.
  destruct (make_container_list_In _ _ _ _ Hb Hin) as (i & _ & ->).
  split.
  - exists (l ++ "_" ++ Py.str_of_int i). split; reflexivity.
  - intros l' c' block' h' Hb' Hin'.
    destruct (make_container_list_In _ _ _ _ Hb' Hin') as (i' & _ & ->).
    simpl. unfold container_name, volume_name_of. simpl. discriminate.
Qed.

Lemma container_and_volume_names_witness :
  name (descriptor_of "200ms" 1) <> volume_name (descriptor_of "200ms" 1).
Proof.
  destruct (container_and_volume_names "200ms" 2
              [descriptor_of "200ms" 0; descriptor_of "200ms" 1]
              (descriptor_of "200ms" 1)) as [_ H].
  - reflexivity.
  - simpl. right. now left.
  - apply (H "200ms" 2 [descriptor_of "200ms" 0; descriptor_of "200ms" 1]).
    + reflexivity.
    + simpl. right. now left.
Defined.

(** ** Dictionary displays *)

Lemma dict_set_keys_In (k k0 : string) (v : Z) (d : dict) :
  In k0 (keys (dict_set k v d)) <-> In k0 (keys d) \/ k0 = k.
Proof.
  induction d as [|[k' v'] d IH]; simpl.
  - intuition.
  - destruct (String.eqb_spec k' k) as [->|Hne]; simpl.
    + intuition.
    + rewrite IH. intuition.
Qed.

Lemma dict_set_wf (k : string) (v : Z) (d : dict) :
  dict_wf d -> dict_wf (dict_set k v d).
Proof.
  unfold dict_wf. induction d as [|[k' v'] d IH]; simpl; intros Hwf.
  - repeat constructor. simpl. tauto.
  - inversion Hwf as [|? ? Hnotin Hwf']; subst.
    destruct (String.eqb_spec k' k) as [->|Hne]; simpl.
    + now constructor.
    + constructor; [|now apply IH].
      intros Hin. apply dict_set_keys_In in Hin as [Hin|Heq]; auto.
Qed.

Lemma fold_dict_set_wf (pairs : list (string * Z)) (d : dict) :
  dict_wf d ->
  dict_wf (fold_left (fun d kv => dict_set (fst kv) (snd kv) d) pairs d).
Proof.
  revert d. induction pairs as [|[k v] pairs IH]; simpl; intros d Hwf.
  - exact Hwf.
  - apply IH. now apply dict_set_wf.
Qed.

Lemma dict_display_wf (pairs : list (string * Z)) : dict_wf (dict_display pairs).
Proof.
  apply fold_dict_set_wf. constructor.
Qed.

(** X4. The host list of a dictionary display has pairwise distinct names and
    pairwise distinct volume names whatever the display holds, also when it
    writes a key more than once or gives negative counts. *)
Theorem display_hostlist_names_distinct (pairs : list (string * Z)) :
  exists hostlist,
    build_hostlist (dict_display pairs) = inr hostlist /\
    NoDup (map name hostlist) /\
    NoDup (map volume_name hostlist).
Proof.
  exists (flat_map block_of (items (dict_display pairs))).
  split; [apply build_hostlist_eq|]. split.
  - apply flat_map_block_key_NoDup; [|apply dict_display_wf].
    intros l l' i i'. apply container_name_inj.
  - apply flat_map_block_key_NoDup; [|apply dict_display_wf].
    intros l l' i i'. apply volume_name_of_inj.
Qed.

Lemma dict_set_fresh (k : string) (v : Z) (d : dict) :
  ~ In k (keys d) -> dict_set k v d = (d ++ [(k, v)])%list.
Proof.
  induction d as [|[k' v'] d IH]; simpl; intros Hnotin.
  - reflexivity.
  - destruct (String.eqb_spec k' k) as [->|Hne].
    + exfalso. apply Hnotin. now left.
    + rewrite IH; [reflexivity|]. intros Hin. apply Hnotin. now right.
Qed.

Lemma fold_dict_set_fresh (pairs : list (string * Z)) (d : dict) :
  NoDup (keys d ++ map fst pairs) ->
  fold_left (fun d kv => dict_set (fst kv) (snd kv) d) pairs d = (d ++ pairs)%list.
Proof.
  revert d. induction pairs as [|[k v] pairs IH]; simpl; intros d Hnd.
  - now rewrite app_nil_r.
  - rewrite dict_set_fresh.
    + rewrite IH.
      * now rewrite <- app_assoc.
      * unfold keys in *. rewrite map_app. simpl. now rewrite <- app_assoc.
    + apply NoDup_remove_2 in Hnd. intros Hin. apply Hnd.
      apply in_or_app. now left.
Qed.

(** X5. A display that writes every key once lists its items in the written
    order, so its host list is the blocks of the written pairs in that
    order; a key that is written again keeps its place and takes the count
    written last. *)
Theorem display_keeps_written_order :
  (forall pairs,
      NoDup (map fst pairs) ->
      items (dict_display pairs) = pairs /\
      build_hostlist (dict_display pairs) = inr (List.concat (map block_of pairs))) /\
  (forall pairs k v,
      In k (map fst pairs) ->
      keys (dict_display (pairs ++ [(k, v)])) = keys (dict_display pairs) /\
      dict_get k (dict_display (pairs ++ [(k, v)])) = Some v).
Proof.
  split.
  - intros pairs Hnd.
    assert (E : dict_display pairs = pairs).
    { unfold dict_display. now rewrite fold_dict_set_fresh. }
    split; [exact E|].
    rewrite build_hostlist_eq, E. unfold items. now rewrite flat_map_concat_map.
  - intros pairs k v Hin. unfold dict_display. rewrite fold_left_app. simpl.
    fold (dict_display pairs).
    assert (Hk : In k (keys (dict_display pairs))).
    { unfold dict_display. clear v.
      assert (G : forall d, In k (keys d) \/ In k (map fst pairs) ->
                  In k (keys (fold_left (fun d kv => dict_set (fst kv) (snd kv) d) pairs d))).
      { clear Hin. induction pairs as [|[k0 v0] pairs IH]; simpl; intros d [H|H].
        - exact H.
        - contradiction.
        - apply IH. left. apply dict_set_keys_In. now left.
        - apply IH. destruct H as [->|H].
          + left. apply dict_set_keys_In. now right.
          + now right. }
      apply G. now right. }
    generalize dependent (dict_display pairs). intros d Hk.
    induction d as [|[k' v'] d IH]; simpl in *; [contradiction|].
    destruct (String.eqb_spec k' k) as [->|Hne]; simpl.
    + rewrite String.eqb_refl. now split.
    + destruct Hk as [Hk|Hk]; [congruence|].
      destruct (IH Hk) as [IH1 IH2].
      destruct (String.eqb_spec k' k) as [Heq|_]; [congruence|].
      split; [now f_equal | exact IH2].
Qed.

Lemma display_keeps_written_order_witness :
  items (dict_display [("100ms", 1); ("200ms", 2)]) = [("100ms", 1); ("200ms", 2)] /\
  dict_get "100ms" (dict_display ([("100ms", 1); ("200ms", 2)] ++ [("100ms", 5)]))
  = Some 5.
Proof.
  destruct display_keeps_written_order as [H1 H2]. split.
  - apply (H1 [("100ms", 1); ("200ms", 2)]). simpl.
    repeat (constructor; [simpl; intuition discriminate|]). constructor.
  - apply (H2 [("100ms", 1); ("200ms", 2)] "100ms" 5). simpl. now left.
Defined.

(** ** How host lists compose *)

(** X6. The loop only appends: started from any host list it returns that
    list followed by the blocks of the items, and the host list of two item
    lists one after the other is the host list of the first followed by the
    host list of the second. *)
Theorem hostlist_loop_appends :
  (forall its acc,
      exists built,
        hostlist_loop its [] = inr built /\
        hostlist_loop its acc = inr (acc ++ built)%list) /\
  (forall d1 d2 : dict,
      exists h1 h2,
        build_hostlist d1 = inr h1 /\
        build_hostlist d2 = inr h2 /\
        build_hostlist (d1 ++ d2)%list = inr (h1 ++ h2)%list).
Proof.
  split.
  - intros its acc. exists (flat_map block_of its).
    now rewrite !hostlist_loop_eq.
  - intros d1 d2.
    exists (flat_map block_of d1), (flat_map block_of d2).
    rewrite !build_hostlist_eq. unfold items. now rewrite flat_map_app.
Qed.

Lemma block_upto_add (l : string) (n k : nat) :
  exists more, block_upto l (n + k) = (block_upto l n ++ more)%list.
Proof.
  induction k as [|k [more IH]].
  - exists []. now rewrite Nat.add_0_r, app_nil_r.
  - exists (more ++ [descriptor_of l (Z.of_nat (n + k))])%list.
    rewrite Nat.add_succ_r. simpl. now rewrite IH, app_assoc.
Qed.

(** X7. Raising the count of a label keeps the descriptors that were there:
    the list for the smaller count is the beginning of the list for the
    larger one. *)
Theorem larger_count_extends_block (l : string) (c c' : Z) :
  c <= c' ->
  exists block more,
    make_container_list l c = inr block /\
    make_container_list l c' = inr (block ++ more)%list.
Proof.
  intros Hle. rewrite !make_container_list_block. unfold block_of. simpl.
  destruct (block_upto_add l (Z.to_nat c) (Z.to_nat c' - Z.to_nat c)) as [more Hmore].
  replace (Z.to_nat c + (Z.to_nat c' - Z.to_nat c))%nat with (Z.to_nat c') in Hmore by lia.
  exists (block_upto l (Z.to_nat c)), more. now rewrite Hmore.
Qed.

Lemma larger_count_extends_block_witness :
  exists block more,
    make_container_list "400ms" 2 = inr block /\
    make_container_list "400ms" 4 = inr (block ++ more)%list.
Proof.
  apply (larger_count_extends_block "400ms" 2 4). lia.
Defined.

(** X8. The descriptor with the index [i] of an item sits at the position
    that is the number of descriptors of the items before it, plus [i]. *)
Theorem descriptor_position (before after : dict) (l : string) (c i : Z) :
  0 <= i < c ->
  exists hostlist,
    build_hostlist (before ++ (l, c) :: after)%list = inr hostlist /\
    nth_error hostlist (Z.to_nat (sum_clamped (values before) + i))
    = Some (descriptor_of l i).
Proof.
  intros Hi. eexists. split; [apply build_hostlist_eq|].
  unfold items. rewrite flat_map_app. simpl.
  pose proof (flat_map_block_length_clamped before) as Hlen.
  unfold values. rewrite <- Hlen.
  rewrite Z2Nat.inj_add, Nat2Z.id by lia.
  rewrite nth_error_app2 by lia.
  replace (List.length (flat_map block_of before) + Z.to_nat i
           - List.length (flat_map block_of before))%nat with (Z.to_nat i) by lia.
  rewrite nth_error_app1.
  - unfold block_of. simpl. rewrite block_upto_nth by lia.
    now rewrite Z2Nat.id by lia.
  - unfold block_of. simpl. rewrite block_upto_length. lia.
Qed.

Lemma descriptor_position_witness :
  exists hostlist,
    build_hostlist ([("100ms", 1); ("200ms", -2)] ++ ("300ms", 3) :: [("400ms", 4)])%list
    = inr hostlist /\
    nth_error hostlist (Z.to_nat (sum_clamped (values [("100ms", 1); ("200ms", -2)]) + 2))
    = Some (descriptor_of "300ms" 2).
Proof.
  apply (descriptor_position [("100ms", 1); ("200ms", -2)] [("400ms", 4)] "300ms" 3 2).
  lia.
Defined.

(** ** The hosts of one latency class *)

Lemma filter_block_upto (l l' : string) (n : nat) :
  filter (has_latency l) (block_upto l' n)
  = if String.eqb l' l then block_upto l' n else [].
Proof.
  induction n as [|n IH]; simpl.
  - now destruct (String.eqb l' l).
  - rewrite filter_app, IH. simpl. unfold has_latency. simpl.
    destruct (String.eqb l' l); reflexivity.
Qed.

Lemma filter_absent_label (l : string) (its : list (string * Z)) :
  ~ In l (map fst its) -> filter (has_latency l) (flat_map block_of its) = [].
Proof.
  induction its as [|[l' c'] its IH]; simpl; intros Hnotin.
  - reflexivity.
  - rewrite filter_app, IH by tauto. unfold block_of. simpl.
    rewrite filter_block_upto.
    destruct (String.eqb_spec l' l) as [->|_]; [tauto | reflexivity].
Qed.

(** X9. In the host list of a dictionary, the descriptors whose latency is a
    given key are, in order, the list that [make_container_list] returns for
    that key and its count; for a label that is no key there are none. *)
Theorem hosts_of_a_latency (d : dict) (l : string) :
  dict_wf d ->
  exists hostlist,
    build_hostlist d = inr hostlist /\
    (forall c, In (l, c) (items d) ->
               make_container_list l c = inr (filter (has_latency l) hostlist)) /\
    (~ In l (keys d) -> filter (has_latency l) hostlist = []).
Proof.
  intros Hwf. exists (flat_map block_of (items d)).
  split; [apply build_hostlist_eq|]. split.
  - intros c Hin. rewrite make_container_list_block. f_equal.
    unfold dict_wf, keys, items in *.
    induction d as [|[l' c'] d IH]; simpl in *; [contradiction|].
    inversion Hwf as [|? ? Hnotin Hwf']; subst.
    rewrite filter_app. unfold block_of at 2. simpl. rewrite filter_block_upto.
    destruct Hin as [[= -> ->]|Hin].
    + rewrite String.eqb_refl, filter_absent_label by exact Hnotin.
      now rewrite app_nil_r.
    + destruct (String.eqb_spec l' l) as [->|_].
      * exfalso. apply Hnotin. apply in_map_iff. now exists (l, c).
      * simpl. now apply IH.
  - intros Hnotin. now apply filter_absent_label.
Qed.

Lemma hosts_of_a_latency_witness :
  make_container_list "300ms" 3
  = inr (filter (has_latency "300ms")
           (flat_map block_of (items latencies_to_node_count))).
Proof.
  destruct (hosts_of_a_latency latencies_to_node_count "300ms")
    as (hostlist & Hbuilt & Hkey & _).
  - unfold dict_wf. vm_compute.
    repeat (constructor; [simpl; intuition discriminate|]). constructor.
  - rewrite build_hostlist_eq in Hbuilt. injection Hbuilt as <-.
    apply (Hkey 3). vm_compute. right. right. now left.
Defined.

(** X10. The order of the items decides the order of the host list and
    nothing else: two item lists that are permutations of one another give
    host lists that are permutations of one another. *)
Theorem permuted_items_permuted_hostlist (d d' : dict) :
  Permutation (items d) (items d') ->
  exists hostlist hostlist',
    build_hostlist d = inr hostlist /\
    build_hostlist d' = inr hostlist' /\
    Permutation hostlist hostlist'.
Proof.
  intros Hperm.
  exists (flat_map block_of (items d)), (flat_map block_of (items d')).
  rewrite !build_hostlist_eq. repeat split.
  now apply Permutation_flat_map.
Qed.

Lemma permuted_items_permuted_hostlist_witness :
  exists hostlist hostlist',
    build_hostlist [("100ms", 1); ("200ms", 2)] = inr hostlist /\
    build_hostlist [("200ms", 2); ("100ms", 1)] = inr hostlist' /\
    Permutation hostlist hostlist'.
Proof.
  apply (permuted_items_permuted_hostlist
           [("100ms", 1); ("200ms", 2)] [("200ms", 2); ("100ms", 1)]).
  apply perm_swap.
Defined.

(** * Further properties of the renderer *)

(** X11. When the template loads and its rendering raises, the run ends with
    that exception and a non-zero exit status; the one call of [render] was
    made with the host list, and standard output stays empty. *)
Theorem render_error_ends_the_run
    (Template : Type) (compile : string -> string + Template)
    (render : Template -> list descriptor -> result string)
    (read_file : string -> string -> option string)
    (source : string) (t : Template) (hostlist : list descriptor) (e : exn) :
  read_file "./" "docker-compose.yaml.j2" = Some source ->
  compile source = inr t ->
  build_hostlist latencies_to_node_count = inr hostlist ->
  render t hostlist = inl e ->
  let out := run (Main.main Template compile render read_file) in
  uncaught out = Some e /\
  exit_status out <> 0 /\
  render_calls (trace out) = [hostlist] /\
  stdout_of (trace out) = EmptyString.
Proof.
  intros Hfile Hcompile Hbuilt Hrender out. subst out.
  unfold run. rewrite main_steps, Hfile, Hcompile, Hbuilt, Hrender. cbn.
  repeat split. discriminate.
Qed.

Lemma render_error_ends_the_run_witness :
  let out := run (Main.main string Examples.compile (fun _ _ => inl TypeError)
                    Examples.read_file) in
  uncaught out = Some TypeError /\
  exit_status out <> 0 /\
  render_calls (trace out) = [flat_map block_of (items latencies_to_node_count)] /\
  stdout_of (trace out) = EmptyString.
Proof.
  apply (render_error_ends_the_run string Examples.compile (fun _ _ => inl TypeError)
           Examples.read_file "services: " "services: "
           (flat_map block_of (items latencies_to_node_count)) TypeError);
    reflexivity.
Defined.

(** * Further properties of the file server *)

(** X13. The method [end_headers] of the script never raises
    [AttributeError] for a header buffer that does not exist yet, because it
    calls [send_header] first, which creates the buffer; the inherited method
    raises [AttributeError] when a request with a version has no header
    buffer. *)
Theorem cors_end_headers_no_AttributeError :
  (forall self, CORSRequestHandler.end_headers self <> inl AttributeError) /\
  (forall self,
      request_version self <> "HTTP/0.9" ->
      headers_buffer self = None ->
      SimpleHTTPRequestHandler.end_headers self = inl AttributeError).
Proof.
  split.
  - intros self.
    destruct (String.eqb_spec (request_version self) "HTTP/0.9") as [H09|Hv].
    + destruct (end_headers_http09 self H09) as [-> _]. discriminate.
    + destruct (cors_end_headers_versioned self Hv) as (self' & -> & _).
      discriminate.
  - intros self Hv Hnone.
    unfold SimpleHTTPRequestHandler.end_headers, BaseHTTPRequestHandler.end_headers.
    now rewrite (versioned_eqb self Hv), Hnone.
Qed.

Lemma cors_end_headers_no_AttributeError_witness :
  SimpleHTTPRequestHandler.end_headers
    (handler_for {| request_path := "/"; request_http_version := Some "HTTP/1.1" |})
  = inl AttributeError.
Proof.
  destruct cors_end_headers_no_AttributeError as [_ H].
  apply H.
  - simpl. discriminate.
  - reflexivity.
Defined.

Lemma send_header_request_version (keyword value : string) (self : handler) :
  request_version (BaseHTTPRequestHandler.send_header keyword value self)
  = request_version self.
Proof.
  unfold BaseHTTPRequestHandler.send_header.
  repeat match goal with |- context [if ?b then _ else _] => destruct b end;
    reflexivity.
Qed.

Lemma send_response_request_version (env : environment) (code : Z)
    (message : option string) (self : handler) :
  request_version (BaseHTTPRequestHandler.send_response env code message self)
  = request_version self.
Proof.
  unfold BaseHTTPRequestHandler.send_response.
  rewrite !send_header_request_version.
  unfold BaseHTTPRequestHandler.send_response_only.
  destruct (String.eqb (request_version self) "HTTP/0.9"); reflexivity.
Qed.

(** X14. For an HTTP/0.9 request the method [end_headers] of the script does
    nothing at all: the handler is returned as it was.  The answer to a GET
    request whose request line has no version is therefore, byte for byte,
    the answer of the handler of the library. *)
Theorem http09_is_served_as_by_the_library :
  (forall self,
      request_version self = "HTTP/0.9" ->
      CORSRequestHandler.end_headers self = inr self) /\
  (forall env req,
      request_http_version req = None ->
      serve_GET CORSRequestHandler.class env req
      = serve_GET SimpleHTTPRequestHandler.class env req).
Proof.
  split.
  - intros self H09. now apply end_headers_http09.
  - intros env [p v] Hnone. simpl in Hnone. subst v.
    unfold serve_GET, SimpleHTTPRequestHandler.do_GET,
      SimpleHTTPRequestHandler.send_head, BaseHTTPRequestHandler.send_error.
    set (self := handler_for _).
    assert (H09 : request_version self = "HTTP/0.9") by reflexivity.
    destruct (open_file env (path self)); cbn zeta.
    + match goal with
      | |- context [class_end_headers CORSRequestHandler.class ?pre] =>
          assert (Hpre : request_version pre = "HTTP/0.9")
            by (now rewrite !send_header_request_version,
                  send_response_request_version);
          destruct (end_headers_http09 pre Hpre) as [Hc Hs]
      end.
      cbn [class_end_headers CORSRequestHandler.class SimpleHTTPRequestHandler.class].
      now rewrite Hc, Hs.
    + destruct (match responses env 404 with Some sl => sl | None => ("???", "???") end)
        as [shortmsg longmsg].
      change (BaseHTTPRequestHandler.body_omitted 404) with false. cbv iota.
      match goal with
      | |- context [class_end_headers CORSRequestHandler.class ?pre] =>
          assert (Hpre : request_version pre = "HTTP/0.9")
            by (now rewrite !send_header_request_version,
                  send_response_request_version);
          destruct (end_headers_http09 pre Hpre) as [Hc Hs]
      end.
      cbn [class_end_headers CORSRequestHandler.class SimpleHTTPRequestHandler.class].
      now rewrite Hc, Hs.
Qed.

Lemma http09_is_served_as_by_the_library_witness :
  serve_GET CORSRequestHandler.class Examples.environment
    {| request_path := "/index.html"; request_http_version := None |}
  = serve_GET SimpleHTTPRequestHandler.class Examples.environment
      {| request_path := "/index.html"; request_http_version := None |}.
Proof.
  destruct http09_is_served_as_by_the_library as [_ H].
  apply H. reflexivity.
Defined.

(** X15. The method [end_headers] of the script leaves the request and the
    connection as they were: the versions, the command, the path and the
    keep-alive decision are those of the handler before the call.  For a
    request with a version the header buffer is empty after the call, so a
    later response starts from a clean buffer. *)
Theorem cors_end_headers_keeps_the_request (self self' : handler) :
  CORSRequestHandler.end_headers self = inr self' ->
  request_version self' = request_version self /\
  protocol_version self' = protocol_version self /\
  command self' = command self /\
  path self' = path self /\
  close_connection self' = close_connection self /\
  (request_version self <> "HTTP/0.9" -> headers_buffer self' = Some []).
Proof.
  unfold CORSRequestHandler.end_headers. cbn zeta.
  rewrite send_header_other by reflexivity.
  unfold SimpleHTTPRequestHandler.end_headers, BaseHTTPRequestHandler.end_headers.
  destruct (String.eqb_spec (request_version self) "HTTP/0.9") as [H09|Hv].
  - assert (E : String.eqb (request_version self) "HTTP/0.9" = true)
      by (rewrite H09; reflexivity).
    rewrite !E. intros [= <-]. repeat split. intros Hv. now elim Hv.
  - cbn [request_version BaseHTTPRequestHandler.buffer_append set_headers_buffer].
    rewrite (versioned_eqb self Hv).
    cbn [headers_buffer BaseHTTPRequestHandler.buffer_append set_headers_buffer].
    intros [= <-]. repeat split.
Qed.

Lemma cors_end_headers_keeps_the_request_witness :
  exists self',
    CORSRequestHandler.end_headers
      (handler_for {| request_path := "/"; request_http_version := Some "HTTP/1.1" |})
    = inr self' /\
    close_connection self' = true /\
    headers_buffer self' = Some [].
Proof.
  eexists. split; [reflexivity|].
  destruct (cors_end_headers_keeps_the_request
              (handler_for {| request_path := "/"; request_http_version := Some "HTTP/1.1" |})
              _ eq_refl) as (_ & _ & _ & _ & Hclose & Hbuffer).
  split; [exact Hclose|]. apply Hbuffer. simpl. discriminate.
Defined.

(** X16. Whatever the command line, the entry point either raises
    [ValueError] or calls [test] with the handler of the script and
    [HTTPServer]: it never fails on an argument list that is too short, and
    it never starts another handler. *)
Theorem main_raises_ValueError_or_serves (int : string -> option Z) (argv : list string) :
  Script.main int argv = inl ValueError \/
  exists port,
    Script.main int argv = inr (test CORSRequestHandler.class HTTPServer port).
Proof.
  unfold Script.main.
  destruct argv as [|program [|arg rest]]; simpl.
  - right. now exists 8000.
  - right. now exists 8000.
  - destruct (int arg) as [n|].
    + right. now exists n.
    + now left.
Qed.
